(** * CX / self-registration-2: the application bootstrap file [src/main.ts]

    The file is a script of two statements: a chain of method calls that
    declares the AngularJS module ['app'], and one call that mounts the
    application on the page.  Everything it does is a call into the framework,
    so the file is embedded as a computation over the framework's interface
    and its behaviour is read off the calls it makes, in order, and off the
    module configuration those calls leave behind. *)

From stdpp Require Import gmap strings list.

Local Open Scope string_scope.
Local Open Scope list_scope.
Local Open Scope nat_scope.

(** ** The text of the file

    One entry per line, in order.  The last line carries no line terminator. *)

Definition main_ts : list string :=
  [ "import { bootstrap, module } from 'angular';"
  ; "import routes from './config/routes';"
  ; "import ApplicationComponent from './components/application/application.component';"
  ; "import DashboardComponent from './components/dashboard/dashboard.component';"
  ; "import RegistrationComponent from './components/registration/registration.component';"
  ; "import UserService from './services/user.service';"
  ; "import RegistrationSuccessComponent from './components/registration-success/registration-success.component';"
  ; EmptyString
  ; EmptyString
  ; "module('app', ["
  ; "    'ui.router'"
  ; "])"
  ; "    .config(routes)"
  ; "    .component('applicationComponent', ApplicationComponent)"
  ; "    .component('dashboardComponent', DashboardComponent)"
  ; "    .service('userService', UserService)"
  ; "    .component('registrationComponent', RegistrationComponent)"
  ; "    .component('registrationSuccessComponent', RegistrationSuccessComponent);"
  ; EmptyString
  ; "bootstrap(document, ['app', 'ngAnimate', 'ngAria']);" ].

(** ** Imports (lines 1-7)

    The default imports are values the file only passes on; their content
    lives in other files, so each is an opaque constant. *)

Inductive binding :=
  | routes
  | ApplicationComponent
  | DashboardComponent
  | RegistrationComponent
  | UserService
  | RegistrationSuccessComponent.

#[global] Instance binding_eq_dec : EqDecision binding.
Proof. solve_decision. Defined.

Record import_decl := Import {
  imp_default : option binding;   (* [import X from ...] *)
  imp_named : list string;        (* [import { a, b } from ...] *)
  imp_from : string
}.

Definition imports : list import_decl :=
  [ Import None ["bootstrap"; "module"] "angular"
  ; Import (Some routes) [] "./config/routes"
  ; Import (Some ApplicationComponent) [] "./components/application/application.component"
  ; Import (Some DashboardComponent) [] "./components/dashboard/dashboard.component"
  ; Import (Some RegistrationComponent) [] "./components/registration/registration.component"
  ; Import (Some UserService) [] "./services/user.service"
  ; Import (Some RegistrationSuccessComponent) []
      "./components/registration-success/registration-success.component" ].

(** A piece of the application is a default import from a relative path;
    the service is the one under [./services/], the other pieces make up
    the user interface (its route table and its components). *)

Definition is_local (d : import_decl) : bool := String.prefix "./" (imp_from d).
Definition is_service (d : import_decl) : bool := String.prefix "./services/" (imp_from d).
Definition is_component (d : import_decl) : bool := String.prefix "./components/" (imp_from d).

Definition pieces : list binding := omap imp_default (filter is_local imports).
Definition service_pieces : list binding :=
  omap imp_default (filter is_service imports).
Definition ui_pieces : list binding :=
  omap imp_default (filter (λ d, is_local d && negb (is_service d)) imports).
Definition component_pieces : list binding :=
  omap imp_default (filter is_component imports).

(** ** The framework interface

    [import { bootstrap, module } from 'angular'] brings in two functions;
    the object [module] returns offers [config], [component] and [service],
    each of which returns that object again so that calls can be chained.
    The only page element the file names is the global [document]. *)

Inductive element := document.

Class Angular (M : Type → Type) (IModule : Type) := {
  module : string → list string → M IModule;
  config : binding → IModule → M IModule;
  component : string → binding → IModule → M IModule;
  service : string → binding → IModule → M IModule;
  bootstrap : element → list string → M unit
}.

(** [m .> f] is the method call [m.f(...)]: run [m], hand the object it
    returns to [f]. *)
Notation "m .> f" := (mbind f m) (at level 61, left associativity).

(** ** The file's statements (lines 10-20) *)

Section main.
  Context {M : Type → Type} {IModule : Type}.
  Context {bindM : MBind M} {ng : Angular M IModule}.

Definition main : M unit :=
  (module "app" [
      "ui.router"
    ]
    .> config routes
    .> component "applicationComponent" ApplicationComponent
    .> component "dashboardComponent" DashboardComponent
    .> service "userService" UserService
    .> component "registrationComponent" RegistrationComponent
    .> component "registrationSuccessComponent" RegistrationSuccessComponent);;

  bootstrap document ["app"; "ngAnimate"; "ngAria"].
End main.

(** ** A framework that records what is asked of it

    AngularJS is a dependency of the repository, not part of it.  The model
    keeps what the file's calls establish: module objects live in a store
    and are reached through references, as JavaScript objects are; the
    registry maps a module name to the object declared last under it; a
    module object queues the declarations made on it in call order; the
    page keeps the list of mounted applications.  Each operation also emits
    the call it served, so a run yields the sequence of calls made.

    It is a recorder, not AngularJS: it always answers, where AngularJS
    throws on an element that is mounted already or on a module it cannot
    load, and it keeps one queue per module, where AngularJS keeps config
    blocks apart from registrations.  The calls a run makes do not depend
    on either; what the file does when the framework throws is read off
    the scripted framework below. *)

Inductive decl :=
  | decl_config (fn : binding)
  | decl_component (name : string) (options : binding)
  | decl_service (name : string) (ctor : binding).

#[global] Instance decl_eq_dec : EqDecision decl.
Proof. solve_decision. Defined.

Record module_obj := ModuleObj {
  mod_name : string;
  mod_requires : list string;
  mod_queue : list decl
}.

Inductive call :=
  | call_module (name : string) (requires : list string)
  | call_method (on : string) (d : decl)
  | call_bootstrap (el : element) (modules : list string).

Record page := Page {
  heap : list module_obj;
  registry : gmap string nat;
  mounted : list (element * list string)
}.

Inductive error :=
  | not_an_object (ref : nat)        (* a method called through a dangling reference *)
  | framework_error (code : string). (* an error of the framework's own *)

Inductive result (A : Type) :=
  | Ok (a : A)
  | Raise (e : error).
Arguments Ok {A} a.
Arguments Raise {A} e.

(** A computation reads the page and either raises, or returns a value, the
    page it leaves and the calls it made. *)
Definition Rec (A : Type) : Type := page → result (A * page * list call).

#[global] Instance Rec_ret : MRet Rec := λ A a w, Ok (a, w, []).

#[global] Instance Rec_bind : MBind Rec := λ A B f m w,
  match m w with
  | Raise e => Raise e
  | Ok (a, w1, t1) =>
      match f a w1 with
      | Raise e => Raise e
      | Ok (b, w2, t2) => Ok (b, w2, t1 ++ t2)
      end
  end.

Definition rec_module (name : string) (requires : list string) : Rec nat := λ w,
  let ref := length (heap w) in
  Ok (ref,
      Page (heap w ++ [ModuleObj name requires []])
           (<[name := ref]> (registry w))
           (mounted w),
      [call_module name requires]).

Definition enqueue (d : decl) (m : module_obj) : module_obj :=
  ModuleObj (mod_name m) (mod_requires m) (mod_queue m ++ [d]).

Definition rec_method (d : decl) (ref : nat) : Rec nat := λ w,
  match heap w !! ref with
  | None => Raise (not_an_object ref)
  | Some m =>
      Ok (ref,
          Page (<[ref := enqueue d m]> (heap w)) (registry w) (mounted w),
          [call_method (mod_name m) d])
  end.

Definition rec_bootstrap (el : element) (modules : list string) : Rec unit := λ w,
  Ok (tt,
      Page (heap w) (registry w) (mounted w ++ [(el, modules)]),
      [call_bootstrap el modules]).

#[global] Instance Rec_angular : Angular Rec nat := {|
  module := rec_module;
  config fn := rec_method (decl_config fn);
  component name options := rec_method (decl_component name options);
  service name ctor := rec_method (decl_service name ctor);
  bootstrap := rec_bootstrap
|}.

(** The file, run against the recording framework. *)
Definition run : Rec unit := main.

(** The module object a name resolves to on a page. *)
Definition lookup_module (name : string) (w : page) : option module_obj :=
  registry w !! name ≫= λ ref, heap w !! ref.

(** ** Reading a sequence of calls *)

Definition is_bootstrap (c : call) : bool :=
  match c with call_bootstrap _ _ => true | _ => false end.

(** A registration puts a named piece into the container. *)
Definition decl_name (d : decl) : option string :=
  match d with
  | decl_config _ => None
  | decl_component n _ | decl_service n _ => Some n
  end.

Definition is_registration (c : call) : bool :=
  match c with
  | call_method _ d => bool_decide (is_Some (decl_name d))
  | _ => false
  end.

Definition is_module_call (c : call) : bool :=
  match c with call_module _ _ => true | _ => false end.

Definition is_config (c : call) : bool :=
  match c with call_method _ (decl_config _) => true | _ => false end.

(** The imported value a declaration hands to the framework. *)
Definition decl_arg (d : decl) : binding :=
  match d with
  | decl_config b | decl_component _ b | decl_service _ b => b
  end.

Definition calls_on (name : string) (t : list call) : list decl :=
  omap (λ c, match c with
             | call_method on d => if decide (on = name) then Some d else None
             | _ => None
             end) t.

(** ** A scripted framework

    The recorder above always answers.  To see what the file does when the
    framework answers otherwise (a call that throws, a method that returns
    another object) the framework is replaced by a script: it logs every
    request with the object it was made on, and a function of the requests
    logged so far, the request at hand included, decides whether the call
    returns, and which reference, or throws, and which error.  Such a
    function stands for any deterministic framework in any starting state.
    The log outlives an error, so it shows where a run stopped. *)

Inductive action :=
  | act_module (name : string) (requires : list string)
  | act_method (d : decl)
  | act_bootstrap (el : element) (modules : list string).

Record request := Request {
  receiver : option nat;   (* the object a method is called on *)
  what : action
}.

Inductive outcome :=
  | Returns (ref : nat)
  | Throws (e : error).

Definition Script (A : Type) : Type := list request → list request * result A.

#[global] Instance Script_bind : MBind Script := λ A B f m log,
  match m log with
  | (log1, Ok a) => f a log1
  | (log1, Raise e) => (log1, Raise e)
  end.

Definition ask (answer : list request → outcome) (q : request) : Script nat := λ log,
  (log ++ [q],
   match answer (log ++ [q]) with
   | Returns ref => Ok ref
   | Throws e => Raise e
   end).

Definition scripted (answer : list request → outcome) : Angular Script nat := {|
  module name requires := ask answer (Request None (act_module name requires));
  config fn m := ask answer (Request (Some m) (act_method (decl_config fn)));
  component name options m :=
    ask answer (Request (Some m) (act_method (decl_component name options)));
  service name ctor m :=
    ask answer (Request (Some m) (act_method (decl_service name ctor)));
  bootstrap el modules := λ log,
    match ask answer (Request None (act_bootstrap el modules)) log with
    | (log1, Ok _) => (log1, Ok tt)
    | (log1, Raise e) => (log1, Raise e)
    end
|}.

(** A framework that lets every declaration through, returning the same
    object each time, and throws when asked to mount. *)
Definition mounted_already (log : list request) : outcome :=
  match what <$> last log with
  | Some (act_bootstrap _ _) => Throws (framework_error "btstrpd")
  | _ => Returns 0
  end.

(** A framework whose [bootstrap] refuses to mount; everything else records. *)
Definition refusing : Angular Rec nat := {|
  module := rec_module;
  config fn := rec_method (decl_config fn);
  component name options := rec_method (decl_component name options);
  service name ctor := rec_method (decl_service name ctor);
  bootstrap _ _ := λ _, Raise (framework_error "btstrpd")
|}.

(** The page before anything is loaded, and a page on which an ['app']
    module with other requirements was declared and mounted before. *)
Definition blank : page := Page [] ∅ [].

Definition used : page :=
  Page [ ModuleObj "lib" [] []
       ; ModuleObj "app" ["ngRoute"] [decl_service "userService" UserService] ]
       (<["lib" := 0]> (<["app" := 1]> ∅))
       [(document, ["app"])].

(** A call that is made on a module is made on ['app']. *)
Definition on_app (c : call) : Prop :=
  match c with
  | call_method on _ => on = "app"
  | _ => True
  end.

(** * Running the file *)

Section run.
  Implicit Types (w : page) (h : list module_obj) (t : list call).

Lemma bind_Ok {A B} (m : Rec A) (f : A → Rec B) w a w1 t1 b w2 t2 :
  m w = Ok (a, w1, t1) →
  f a w1 = Ok (b, w2, t2) →
  (m ≫= f) w = Ok (b, w2, t1 ++ t2).
Proof. intros Hm Hf. unfold mbind, Rec_bind. by rewrite Hm, Hf. Qed.

(** A method call through a reference to the youngest object of the store
    reaches that object and queues the declaration on it. *)
Lemma rec_method_last d h m r mt :
  rec_method d (length h) (Page (h ++ [m]) r mt)
  = Ok (length h, Page (h ++ [enqueue d m]) r mt, [call_method (mod_name m) d]).
Proof.
  unfold rec_method; cbn [heap registry mounted].
  rewrite list_lookup_middle by done.
  rewrite <- (Nat.add_0_r (length h)) at 2.
  by rewrite insert_app_r.
Qed.

(** A chained method call: the object comes from the computation before. *)
Lemma chain_last (m : Rec nat) d w h o r mt t :
  m w = Ok (length h, Page (h ++ [o]) r mt, t) →
  (m .> rec_method d) w
  = Ok (length h, Page (h ++ [enqueue d o]) r mt, t ++ [call_method (mod_name o) d]).
Proof. intros Hm. eapply bind_Ok; [done | apply rec_method_last]. Qed.

(** What a run of the file returns, from any page. *)
Lemma run_spec w :
  run w =
  Ok (tt,
      Page (heap w ++
              [ModuleObj "app" ["ui.router"]
                 [ decl_config routes
                 ; decl_component "applicationComponent" ApplicationComponent
                 ; decl_component "dashboardComponent" DashboardComponent
                 ; decl_service "userService" UserService
                 ; decl_component "registrationComponent" RegistrationComponent
                 ; decl_component "registrationSuccessComponent"
                     RegistrationSuccessComponent ]])
           (<["app" := length (heap w)]> (registry w))
           (mounted w ++ [(document, ["app"; "ngAnimate"; "ngAria"])]),
      [ call_module "app" ["ui.router"]
      ; call_method "app" (decl_config routes)
      ; call_method "app" (decl_component "applicationComponent" ApplicationComponent)
      ; call_method "app" (decl_component "dashboardComponent" DashboardComponent)
      ; call_method "app" (decl_service "userService" UserService)
      ; call_method "app" (decl_component "registrationComponent" RegistrationComponent)
      ; call_method "app"
          (decl_component "registrationSuccessComponent" RegistrationSuccessComponent)
      ; call_bootstrap document ["app"; "ngAnimate"; "ngAria"] ]).
Proof.
  unfold run, main.
  cbn [module config component service bootstrap Rec_angular].
  etrans.
  - eapply bind_Ok; [|done].
    do 6 eapply chain_last. done.
  - done.
Qed.
End run.

Example run_blank :
  run blank =
  Ok (tt,
      Page [ModuleObj "app" ["ui.router"]
              [ decl_config routes
              ; decl_component "applicationComponent" ApplicationComponent
              ; decl_component "dashboardComponent" DashboardComponent
              ; decl_service "userService" UserService
              ; decl_component "registrationComponent" RegistrationComponent
              ; decl_component "registrationSuccessComponent"
                  RegistrationSuccessComponent ]]
           (<["app" := 0]> ∅)
           [(document, ["app"; "ngAnimate"; "ngAria"])],
      [ call_module "app" ["ui.router"]
      ; call_method "app" (decl_config routes)
      ; call_method "app" (decl_component "applicationComponent" ApplicationComponent)
      ; call_method "app" (decl_component "dashboardComponent" DashboardComponent)
      ; call_method "app" (decl_service "userService" UserService)
      ; call_method "app" (decl_component "registrationComponent" RegistrationComponent)
      ; call_method "app"
          (decl_component "registrationSuccessComponent" RegistrationSuccessComponent)
      ; call_bootstrap document ["app"; "ngAnimate"; "ngAria"] ]).
Proof. reflexivity. Qed.

(** On a used page the new declaration takes the name over; the older
    object stays in the store, untouched. *)
Example run_used :
  ∃ w t,
    run used = Ok (tt, w, t)
    ∧ registry w !! "app" = Some 2
    ∧ mod_requires <$> lookup_module "app" w = Some ["ui.router"]
    ∧ heap w !! 1 = heap used !! 1
    ∧ mounted w = [(document, ["app"]); (document, ["app"; "ngAnimate"; "ngAria"])].
Proof. do 2 eexists. split; [apply run_spec|]. done. Qed.

(** The model does have failures: a method called through a reference to
    nothing raises, and a framework error passes through [main] unhandled. *)
Example method_on_nothing :
  rec_method (decl_config routes) 0 blank = Raise (not_an_object 0).
Proof. reflexivity. Qed.

Example main_refused :
  main (ng := refusing) blank = Raise (framework_error "btstrpd").
Proof. reflexivity. Qed.

(** * Order within a sequence *)

Section order.
  Context {A : Type} (P Q : A → Prop).

(** When a sequence splits into a part without [Q] followed by a part
    without [P], every [P] comes before every [Q]. *)
Lemma split_precedes (l1 l2 : list A) :
  Forall (λ a, ¬ Q a) l1 →
  Forall (λ a, ¬ P a) l2 →
  ∀ i j a b,
    (l1 ++ l2) !! i = Some a → P a →
    (l1 ++ l2) !! j = Some b → Q b →
    i < j.
Proof.
  intros HQ HP i j a b Hi Ha Hj Hb.
  assert (i < length l1) as Hlt.
  { destruct (decide (i < length l1)) as [|Hge]; [done|].
    rewrite lookup_app_r in Hi by lia.
    rewrite Forall_forall in HP.
    destruct (HP a); [by eapply list_elem_of_lookup_2 | done]. }
  assert (length l1 ≤ j); [|lia].
  destruct (decide (length l1 ≤ j)) as [|Hlt']; [done|].
  rewrite lookup_app_l in Hj by lia.
  rewrite Forall_forall in HQ.
  destruct (HQ b); [by eapply list_elem_of_lookup_2 | done].
Qed.
End order.

Section names.
  Context {A K : Type} `{!EqDecision K} (key : A → option K).

Lemma filter_key_absent (l : list A) (k : K) :
  k ∉ omap key l → filter (λ a, key a = Some k) l = [].
Proof.
  induction l as [|a l IH]; [done|].
  cbn [omap list_omap]. intros Hnotin.
  rewrite filter_cons. case_decide as Heq.
  - rewrite Heq in Hnotin. by destruct Hnotin; left.
  - apply IH. destruct (key a); [by apply not_elem_of_cons in Hnotin as [_ ?] | done].
Qed.

(** Among entries whose keys are pairwise distinct, a key selects at most
    one entry. *)
Lemma NoDup_keys_filter (l : list A) (k : K) :
  NoDup (omap key l) →
  length (filter (λ a, key a = Some k) l) ≤ 1.
Proof.
  induction l as [|a l IH]; cbn [omap list_omap]; [intros _; simpl; lia|].
  rewrite filter_cons. intros Hnd. case_decide as Heq.
  - rewrite Heq in Hnd. apply NoDup_cons in Hnd as [Hnotin _].
    by rewrite filter_key_absent.
  - apply IH. destruct (key a); [by apply NoDup_cons in Hnd as [_ ?] | done].
Qed.

(** Hence two entries that carry the same key are the same entry. *)
Lemma NoDup_keys_lookup (l : list A) i j a b k :
  NoDup (omap key l) →
  l !! i = Some a → l !! j = Some b →
  key a = Some k → key b = Some k →
  i = j.
Proof.
  revert i j. induction l as [|x l IH]; intros i j Hnd Hi Hj Ha Hb; [done|].
  cbn [omap list_omap] in Hnd.
  assert (∀ n c, l !! n = Some c → key c = Some k → k ∈ omap key l) as Hin.
  { intros n c Hn Hc. apply list_elem_of_omap. exists c.
    split; [by eapply list_elem_of_lookup_2 | done]. }
  destruct i as [|i], j as [|j]; simplify_eq/=; [done| | |].
  - rewrite Ha in Hnd. apply NoDup_cons in Hnd as [Hnotin _].
    destruct Hnotin; eauto.
  - rewrite Hb in Hnd. apply NoDup_cons in Hnd as [Hnotin _].
    destruct Hnotin; eauto.
  - f_equal. apply (IH i j); [|done..].
    destruct (key x); [by apply NoDup_cons in Hnd as [_ ?] | done].
Qed.
End names.

(** * Properties of the file *)

Lemma lookup_app_after_run (h : list module_obj) (r : gmap string nat) mt (m : module_obj) :
  lookup_module "app" (Page (h ++ [m]) (<["app" := length h]> r) mt) = Some m.
Proof.
  unfold lookup_module; cbn [registry heap].
  rewrite lookup_insert_eq. cbn [mbind option_bind].
  by apply list_lookup_middle.
Qed.

(** [with_run] answers a goal about what some run returns with the run's
    actual result. *)
Ltac with_run :=
  repeat lazymatch goal with
    | |- ∃ _, _ => eexists
    | |- run _ = _ ∧ _ => split; [apply run_spec|]
    end.

(** C1: from any page, the file calls [bootstrap] exactly once, on the
    global [document], with the module list ['app', 'ngAnimate', 'ngAria']
    and nothing else; the page gains that one mounted application. *)
Theorem bootstrap_once (w : page) :
  ∃ w' t,
    run w = Ok (tt, w', t)
    ∧ filter is_bootstrap t = [call_bootstrap document ["app"; "ngAnimate"; "ngAria"]]
    ∧ mounted w' = mounted w ++ [(document, ["app"; "ngAnimate"; "ngAria"])].
Proof. with_run. done. Qed.

(** C2: the four components and the service are all registered on ['app'],
    and in the sequence of calls every registration comes before every
    [bootstrap] call. *)
Theorem registrations_before_bootstrap (w : page) :
  ∃ w' t,
    run w = Ok (tt, w', t)
    ∧ Forall (λ d, call_method "app" d ∈ t)
        [ decl_component "applicationComponent" ApplicationComponent
        ; decl_component "dashboardComponent" DashboardComponent
        ; decl_component "registrationComponent" RegistrationComponent
        ; decl_component "registrationSuccessComponent" RegistrationSuccessComponent
        ; decl_service "userService" UserService ]
    ∧ ∀ i j c b,
        t !! i = Some c → is_registration c →
        t !! j = Some b → is_bootstrap b →
        i < j.
Proof.
  with_run. split.
  - repeat constructor; set_solver.
  - apply (split_precedes (λ c, is_registration c) (λ c, is_bootstrap c)
             [_; _; _; _; _; _; _] [_]);
      repeat constructor; cbn; by intros [].
Qed.

(** C3: the module registered under ['app'] is named ['app'] and requires
    exactly ['ui.router']; it is the only module the file declares. *)
Theorem app_requires_ui_router (w : page) :
  ∃ w' t m,
    run w = Ok (tt, w', t)
    ∧ lookup_module "app" w' = Some m
    ∧ mod_name m = "app"
    ∧ mod_requires m = ["ui.router"]
    ∧ filter is_module_call t = [call_module "app" ["ui.router"]].
Proof. with_run. split; [apply lookup_app_after_run | done]. Qed.

(** C4: the imported [routes] is handed to the [config] step of ['app'],
    once; it heads the module's queue, and in the sequence of calls it comes
    before every component or service registration. *)
Theorem config_routes_first (w : page) :
  ∃ w' t m,
    run w = Ok (tt, w', t)
    ∧ lookup_module "app" w' = Some m
    ∧ filter is_config t = [call_method "app" (decl_config routes)]
    ∧ head (mod_queue m) = Some (decl_config routes)
    ∧ ∀ i j c r,
        t !! i = Some c → is_config c →
        t !! j = Some r → is_registration r →
        i < j.
Proof.
  with_run. split; [apply lookup_app_after_run|].
  do 2 (split; [done|]).
  apply (split_precedes (λ c, is_config c) (λ c, is_registration c)
           [_; _] [_; _; _; _; _; _]);
    repeat constructor; cbn; try (by intros []).
  all: intros _ Hsome; apply bool_decide_unpack in Hsome; by destruct Hsome.
Qed.

(** C5: besides the framework's two functions the file imports six pieces:
    five for the user interface (the route table and four components) and
    one service.  Each of the six is handed to exactly one call on ['app'];
    the components go to [component] calls and the service to a [service]
    call. *)
Theorem every_import_used_once (w : page) :
  ui_pieces = [ routes; ApplicationComponent; DashboardComponent
              ; RegistrationComponent; RegistrationSuccessComponent ]
  ∧ service_pieces = [UserService]
  ∧ length ui_pieces = 5
  ∧ length service_pieces = 1
  ∧ pieces ≡ₚ ui_pieces ++ service_pieces
  ∧ ∃ w' t,
      run w = Ok (tt, w', t)
      ∧ (∀ b, b ∈ pieces →
          length (filter (λ d, decl_arg d = b) (calls_on "app" t)) = 1)
      ∧ (∀ b, b ∈ component_pieces →
          ∃ name, decl_component name b ∈ calls_on "app" t)
      ∧ (∀ b, b ∈ service_pieces →
          ∃ name, decl_service name b ∈ calls_on "app" t).
Proof.
  do 4 (split; [done|]). split.
  - change pieces with ([routes; ApplicationComponent; DashboardComponent;
                         RegistrationComponent] ++ [UserService] ++ [RegistrationSuccessComponent]).
    change (ui_pieces ++ service_pieces)
      with ([routes; ApplicationComponent; DashboardComponent; RegistrationComponent]
              ++ [RegistrationSuccessComponent] ++ [UserService]).
    f_equiv. apply Permutation_app_comm.
  - with_run. split; [by intros [] _|].
    split; intros b Hb; apply list_elem_of_In in Hb; vm_compute in Hb;
      destruct_or!; try done; subst b; eexists;
      apply list_elem_of_In; vm_compute;
      repeat ((left; reflexivity) || right).
Qed.

(** C6, as amended: the file has exactly 20 lines; the [bootstrap] call is
    the last of them, line 20. *)
Theorem main_ts_has_20_lines :
  length main_ts = 20
  ∧ main_ts !! 19 = Some "bootstrap(document, ['app', 'ngAnimate', 'ngAria']);"
  ∧ main_ts !! 20 = None.
Proof. done. Qed.

(** C6, as stated, fails: the file does not have 21 lines. *)
Lemma main_ts_not_21_lines : length main_ts ≠ 21.
Proof. discriminate. Qed.

(** C7, as amended: the file is straight-line code without failure handling.
    Whatever the framework answers, a run makes the same eight calls in the
    same order, each method on the object the call before it returned, until
    a call throws.  It then stops, having caught nothing, and raises the
    error that call threw; it raises nothing else.  When no call throws it
    ends normally after the eighth. *)
Theorem main_straight_line (answer : list request → outcome) (log : list request) :
  ∃ made r,
    main (ng := scripted answer) log = (log ++ made, r)
    ∧ what <$> made `prefix_of`
        [ act_module "app" ["ui.router"]
        ; act_method (decl_config routes)
        ; act_method (decl_component "applicationComponent" ApplicationComponent)
        ; act_method (decl_component "dashboardComponent" DashboardComponent)
        ; act_method (decl_service "userService" UserService)
        ; act_method (decl_component "registrationComponent" RegistrationComponent)
        ; act_method
            (decl_component "registrationSuccessComponent" RegistrationSuccessComponent)
        ; act_bootstrap document ["app"; "ngAnimate"; "ngAria"] ]
    ∧ made ≠ []
    ∧ (∀ k q, made !! S k = Some q →
         ∃ ref, answer (log ++ take (S k) made) = Returns ref
                ∧ ∀ d, what q = act_method d → receiver q = Some ref)
    ∧ (r = Ok tt ↔ length made = 8 ∧ ∃ ref, answer (log ++ made) = Returns ref)
    ∧ (∀ e, r = Raise e ↔ answer (log ++ made) = Throws e).
Proof.
  unfold main, mbind, Script_bind.
  cbn [module config component service bootstrap scripted].
  unfold ask.
  (* one case per call that may throw, and one where none does *)
  repeat match goal with
         | |- context [answer ?l] =>
             lazymatch goal with
             | _ : answer l = _ |- _ => fail
             | _ => destruct (answer l) eqn:?; cbv beta iota
             end
         end.
  all: rewrite <- ?app_assoc in *; cbn [app] in *.
  all: do 2 eexists; (split; [reflexivity|]).
  all: split; [by eexists|].
  all: split; [done|].
  all: split;
    [ intros k q Hk;
      repeat (destruct k as [|k];
              [ simplify_eq/=; eexists; split; [eassumption | intros; by simplify_eq] |]);
      done |].
  all: split;
    [ split; [intros; simplify_eq; eauto
             | intros [Hlen [ref' Href]]; simplify_eq/=; congruence] |].
  all: intros err; split; [intros; simplify_eq; done | intros; congruence].
Qed.

(** C7, as stated, fails: the file can raise.  When the framework throws at
    the mount, all eight calls have been made and the run raises that error. *)
Lemma main_raises_what_bootstrap_throws :
  snd (main (ng := scripted mounted_already) []) = Raise (framework_error "btstrpd")
  ∧ length (fst (main (ng := scripted mounted_already) [])) = 8.
Proof. done. Qed.

(** C8: the calls made on ['app'], and the queue of the module they build,
    are in this order: [config(routes)], then the components
    ['applicationComponent'] and ['dashboardComponent'], then the service
    ['userService'], then the components ['registrationComponent'] and
    ['registrationSuccessComponent'].  The service is neither the first nor
    the last registration. *)
Theorem declaration_order (w : page) :
  ∃ w' t m,
    run w = Ok (tt, w', t)
    ∧ lookup_module "app" w' = Some m
    ∧ calls_on "app" t =
        [ decl_config routes
        ; decl_component "applicationComponent" ApplicationComponent
        ; decl_component "dashboardComponent" DashboardComponent
        ; decl_service "userService" UserService
        ; decl_component "registrationComponent" RegistrationComponent
        ; decl_component "registrationSuccessComponent" RegistrationSuccessComponent ]
    ∧ mod_queue m = calls_on "app" t
    ∧ ∃ before after,
        filter (λ d, is_Some (decl_name d)) (calls_on "app" t)
        = before ++ [decl_service "userService" UserService] ++ after
        ∧ before ≠ [] ∧ after ≠ [].
Proof.
  with_run. split; [apply lookup_app_after_run|].
  do 2 (split; [done|]).
  by exists [decl_component "applicationComponent" ApplicationComponent;
             decl_component "dashboardComponent" DashboardComponent],
            [decl_component "registrationComponent" RegistrationComponent;
             decl_component "registrationSuccessComponent" RegistrationSuccessComponent].
Qed.

(** C9: the five names registered on ['app'] are pairwise distinct, so a
    name selects at most one registration and no registration shares its
    name with an earlier one. *)
Theorem registered_names_distinct (w : page) :
  ∃ w' t m,
    run w = Ok (tt, w', t)
    ∧ lookup_module "app" w' = Some m
    ∧ omap decl_name (mod_queue m) =
        [ "applicationComponent"; "dashboardComponent"; "userService"
        ; "registrationComponent"; "registrationSuccessComponent" ]
    ∧ NoDup (omap decl_name (mod_queue m))
    ∧ (∀ name, length (filter (λ d, decl_name d = Some name) (mod_queue m)) ≤ 1)
    ∧ (∀ i j d1 d2 name,
         mod_queue m !! i = Some d1 → mod_queue m !! j = Some d2 →
         decl_name d1 = Some name → decl_name d2 = Some name →
         i = j).
Proof.
  with_run. split; [apply lookup_app_after_run|].
  split; [done|].
  assert (NoDup (omap decl_name
            (mod_queue (ModuleObj "app" ["ui.router"]
               [ decl_config routes
               ; decl_component "applicationComponent" ApplicationComponent
               ; decl_component "dashboardComponent" DashboardComponent
               ; decl_service "userService" UserService
               ; decl_component "registrationComponent" RegistrationComponent
               ; decl_component "registrationSuccessComponent"
                   RegistrationSuccessComponent ])))) as Hnd.
  { cbn [mod_queue omap list_omap decl_name]. apply (bool_decide_unpack _). by vm_compute. }
  split; [done|]. split.
  - intros name. by apply NoDup_keys_filter.
  - intros i j d1 d2 name. by apply NoDup_keys_lookup.
Qed.

(** C10: two runs, from any two pages, make the same calls in the same
    order, leave the same module under ['app'] (name, requirements and
    queue) and mount the same application last. *)
Theorem run_input_independent (w1 w2 : page) :
  ∃ w1' w2' t m app,
    run w1 = Ok (tt, w1', t)
    ∧ run w2 = Ok (tt, w2', t)
    ∧ lookup_module "app" w1' = Some m
    ∧ lookup_module "app" w2' = Some m
    ∧ last (mounted w1') = Some app
    ∧ last (mounted w2') = Some app.
Proof.
  do 5 eexists.
  split; [apply run_spec|]. split; [apply run_spec|].
  do 2 (split; [apply lookup_app_after_run|]).
  cbn [mounted]. by rewrite !last_snoc.
Qed.

(** * What a run leaves alone *)

(** X2: a run only adds.  The store keeps every object it held, unchanged
    and at its reference; the applications mounted before stay mounted, in
    order; every name other than ['app'] keeps its registry entry; and no
    method is called on any module but ['app']. *)
Theorem run_only_adds (w : page) :
  ∃ w' t,
    run w = Ok (tt, w', t)
    ∧ heap w `prefix_of` heap w'
    ∧ mounted w `prefix_of` mounted w'
    ∧ (∀ ref m, heap w !! ref = Some m → heap w' !! ref = Some m)
    ∧ (∀ name, name ≠ "app" → registry w' !! name = registry w !! name)
    ∧ Forall on_app t.
Proof.
  with_run. cbn [heap registry mounted].
  split; [by apply prefix_app_r|]. split; [by apply prefix_app_r|].
  split; [intros ref m Hm; by apply lookup_app_l_Some|].
  split; [intros name Hne; by rewrite lookup_insert_ne|].
  by repeat constructor.
Qed.
